(** * The transpose test bench (gateware/sim/transpose/tb_transpose.py)

    A shallow embedding of the cocotb coroutine [test_transpose_00], which
    drives the dual-delay-line pitch shifter with a sine wave and watches its
    output for discontinuities.

    The coroutine is embedded in a small state-and-exception monad: the state
    holds what the bench drives into the module, the number of rising edges of
    [sample_clk] it has waited for, its two local variables and what it has
    printed; the exception is Python's [AssertionError].  The module under test
    is a black box: the bench only samples five of its signals, so a run is
    parameterised by the values those signals show after each rising edge. *)

From Stdlib Require Import ZArith List Lia Bool Reals Lra.
Import ListNotations.
Open Scope Z_scope.

(** ** Sample encoding (util/i2s.py) *)

(** Modelled from the spec: [bits_from_signed] is imported from util/i2s.py,
    which is not part of the available sources.  The spec describes a sample
    as "a fixed-width signed integer (width = 16 bits in the observed
    stimulus)"; the encoder is therefore the two's-complement bit pattern of
    [n] on [width] bits, read as an unsigned number. *)
Definition bits_from_signed (n width : Z) : Z :=
  n mod 2 ^ width.

(** Modelled from the spec: [signed_from_bits] is imported from util/i2s.py,
    which is not part of the available sources.  It is the inverse reading:
    the [width] low bits of [b] taken as a two's-complement signed number. *)
Definition signed_from_bits (b width : Z) : Z :=
  let u := b mod 2 ^ width in
  if u <? 2 ^ (width - 1) then u else u - 2 ^ width.

(** ** The stimulus: [int(1000*math.sin(i / 100))] *)

(** Python's [int] on a float truncates toward zero.  The double-precision
    arithmetic of the source is idealised to real arithmetic; [Int_part] is
    the floor. *)
Definition py_int (x : R) : Z :=
  if Rle_dec 0 x then Int_part x else - Int_part (- x).

Definition data_in (i : nat) : Z :=
  py_int (1000 * sin (INR i / 100)).

(** The spec's wording for the same stimulus, "round(1000 * sin(i/100))":
    [n] is a rounding of [x] to a nearest integer (whatever the tie rule). *)
Definition is_round (x : R) (n : Z) : Prop :=
  (Rabs (x - IZR n) <= 1 / 2)%R.

(** ** Signals and bench state *)

(** The signals of the module that the bench samples, as unsigned integers. *)
Record signals := mkSignals {
  sample_out : Z;
  delay_out0 : Z;
  env0 : Z;
  delay_out1 : Z;
  env1 : Z
}.

(** The lines the bench prints. *)
Inductive line :=
| in_line (i : nat) (v : Z)      (* i={i} in: v *)
| out_line (i : nat) (v : Z)     (* i={i} out: v *)
| del0_line (v : Z)              (* del0: v *)
| env0_line (v : Z)              (* env0: v *)
| del1_line (v : Z)              (* del1: v *)
| env1_line (v : Z)              (* env1: v *)
| found_line                     (* FOUND A DISCONTINUITY - failing... *)
| rule_line.                     (* ========================= *)

Record tb := mkTb {
  edges : nat;                   (* rising edges of sample_clk awaited so far *)
  sample_in : option Z;          (* dut.sample_in.value, None until driven *)
  pitch : option Z;              (* dut.pitch.value, None until driven *)
  data_out_last : option Z;
  breaknext : bool;
  stdout : list line             (* most recent line first *)
}.

Definition tb0 : tb := mkTb 0 None None None false [].

Definition sample_width : Z := 16.

(** ** The bench monad *)

Inductive result (A : Type) :=
| Normal (a : A)
| AssertionError.
Arguments Normal {A} a.
Arguments AssertionError {A}.

Definition Tb (A : Type) : Type := tb -> result A * tb.

Definition ret {A} (a : A) : Tb A := fun s => (Normal a, s).

Definition bind {A B} (m : Tb A) (k : A -> Tb B) : Tb B :=
  fun s =>
    match m s with
    | (Normal a, s') => k a s'
    | (AssertionError, s') => (AssertionError, s')
    end.

Notation "x <- m ;; k" := (bind m (fun x => k))
  (at level 61, m at next level, right associativity).
Notation "m ;; k" := (bind m (fun _ => k))
  (at level 61, right associativity).

Definition get {A} (f : tb -> A) : Tb A := fun s => (Normal (f s), s).

Definition modify (f : tb -> tb) : Tb unit := fun s => (Normal tt, f s).

(** [assert(b)] *)
Definition assert_ (b : bool) : Tb unit :=
  fun s => if b then (Normal tt, s) else (AssertionError, s).

(** [await RisingEdge(dut.sample_clk)] *)
Definition rising_edge : Tb unit :=
  modify (fun s => mkTb (S (edges s)) (sample_in s) (pitch s)
                        (data_out_last s) (breaknext s) (stdout s)).

(** [dut.sample_in.value = v] *)
Definition drive_sample_in (v : Z) : Tb unit :=
  modify (fun s => mkTb (edges s) (Some v) (pitch s)
                        (data_out_last s) (breaknext s) (stdout s)).

(** [dut.pitch.value = v] *)
Definition drive_pitch (v : Z) : Tb unit :=
  modify (fun s => mkTb (edges s) (sample_in s) (Some v)
                        (data_out_last s) (breaknext s) (stdout s)).

Definition set_data_out_last (v : option Z) : Tb unit :=
  modify (fun s => mkTb (edges s) (sample_in s) (pitch s)
                        v (breaknext s) (stdout s)).

Definition set_breaknext (b : bool) : Tb unit :=
  modify (fun s => mkTb (edges s) (sample_in s) (pitch s)
                        (data_out_last s) b (stdout s)).

Definition print (l : line) : Tb unit :=
  modify (fun s => mkTb (edges s) (sample_in s) (pitch s)
                        (data_out_last s) (breaknext s) (l :: stdout s)).

(** [for i in range(n): body] *)
Fixpoint for_each (l : list nat) (body : nat -> Tb unit) : Tb unit :=
  match l with
  | [] => ret tt
  | i :: l' => body i ;; for_each l' body
  end.

Definition for_range (n : nat) (body : nat -> Tb unit) : Tb unit :=
  for_each (seq 0 n) body.

(** ** The coroutine *)

Section Bench.

(** What the module's signals show once [e] rising edges have been awaited. *)
Variable dut : nat -> signals.

(** Sampling a signal of the module at the current point of the simulation. *)
Definition read (f : signals -> Z) : Tb Z :=
  get (fun s => f (dut (edges s))).

(** The first statements: both inputs are driven before any clock edge. *)
Definition setup : Tb unit :=
  drive_sample_in 0 ;;
  drive_pitch (5000 * 4).

(** "Clock in some zeroes so the delay lines are full of zeroes." *)
Definition warmup_loop (n : nat) : Tb unit :=
  for_range n (fun _ => rising_edge).

Definition init_locals : Tb unit :=
  set_data_out_last None ;;
  set_breaknext false.

(** The body of the stimulus loop.  The [break] that follows [assert(False)]
    in the source can never run and is left out. *)
Definition stim_body (i : nat) : Tb unit :=
  rising_edge ;;
  let din := data_in i in
  drive_sample_in (bits_from_signed din sample_width) ;;
  raw <- read sample_out ;;
  let data_out := signed_from_bits raw sample_width in
  print (in_line i din) ;;
  print (out_line i data_out) ;;
  last <- get data_out_last ;;
  match last with
  | Some l =>
      d0 <- read delay_out0 ;; print (del0_line d0) ;;
      e0 <- read env0 ;; print (env0_line e0) ;;
      d1 <- read delay_out1 ;; print (del1_line d1) ;;
      e1 <- read env1 ;; print (env1_line e1) ;;
      bn <- get breaknext ;;
      (if bn then print found_line ;; assert_ false else ret tt) ;;
      (if 50 <? Z.abs (data_out - l)
       then print rule_line ;; set_breaknext true
       else ret tt)
  | None => ret tt
  end ;;
  set_data_out_last (Some data_out).

Definition stimulus_loop (n : nat) : Tb unit :=
  for_range n stim_body.

(** The bench with its second loop cut after [n] iterations; the prefixes
    give the state of the bench at every tick of the stimulus phase. *)
Definition test_prefix (n : nat) : Tb unit :=
  setup ;;
  warmup_loop 1024 ;;
  init_locals ;;
  stimulus_loop n.

Definition test_transpose_00 : Tb unit :=
  setup ;;
  warmup_loop 1024 ;;
  init_locals ;;
  stimulus_loop 2048.

(** *** Vocabulary of the claims *)

(** The decoded output sample of stimulus iteration [i]: the bench has by
    then awaited 1024 warm-up edges and [i + 1] stimulus edges. *)
Definition data_out_at (i : nat) : Z :=
  signed_from_bits (sample_out (dut (1025 + i)%nat)) sample_width.

(** The delta between the outputs of iterations [i - 1] and [i] exceeds the
    threshold (meaningful for [1 <= i]). *)
Definition discontinuity (i : nat) : bool :=
  50 <? Z.abs (data_out_at i - data_out_at (i - 1)).

Definition quiet_before (i : nat) : Prop :=
  forall j, (1 <= j < i)%nat -> discontinuity j = false.

Definition first_discontinuity (i : nat) : Prop :=
  (1 <= i)%nat /\ discontinuity i = true /\ quiet_before i.

End Bench.

(** The state in which the stimulus loop starts. *)
Definition tb_warm : tb := mkTb 1024 (Some 0) (Some (5000 * 4)) None false [].

(** What a well-formed log line says. *)
Definition line_ok (dut : nat -> signals) (l : line) : Prop :=
  match l with
  | in_line i v => v = data_in i
  | out_line i v =>
      v = data_out_at dut i /\ - 2 ^ 15 <= v < 2 ^ 15
  | found_line => False
  | _ => True
  end.

(** The state of the bench after [n] iterations of the stimulus loop that
    did not raise. *)
Definition loop_inv (dut : nat -> signals) (n : nat) (s : tb) : Prop :=
  edges s = (1024 + n)%nat /\
  pitch s = Some (5000 * 4) /\
  sample_in s =
    Some (match n with
          | O => 0
          | S m => bits_from_signed (data_in m) sample_width
          end) /\
  data_out_last s =
    match n with O => None | S m => Some (data_out_at dut m) end /\
  breaknext s =
    match n with S (S m) => discontinuity dut (S m) | _ => false end /\
  quiet_before dut (n - 1) /\
  Forall (line_ok dut) (stdout s).

(** The state of the bench when iteration [k] of the stimulus loop raised. *)
Definition raised_at (dut : nat -> signals) (k : nat) (s : tb) : Prop :=
  (2 <= k)%nat /\
  first_discontinuity dut (k - 1) /\
  edges s = (1025 + k)%nat /\
  pitch s = Some (5000 * 4) /\
  sample_in s = Some (bits_from_signed (data_in k) sample_width) /\
  data_out_last s = Some (data_out_at dut (k - 1)) /\
  breaknext s = true /\
  exists rest, stdout s = found_line :: rest /\ Forall (line_ok dut) rest.

(** Two bench states that differ at most in what has been printed. *)
Definition same_control (s s' : tb) : Prop :=
  edges s = edges s' /\
  sample_in s = sample_in s' /\
  pitch s = pitch s' /\
  data_out_last s = data_out_last s' /\
  breaknext s = breaknext s'.

(** *** Some modules under test *)

(** A module whose output is stuck at [v]. *)
Definition flat (v : Z) : nat -> signals :=
  fun _ => mkSignals v 0 0 0 0.

(** A module whose output is [v] when sampled after edge [e], 0 otherwise. *)
Definition spike_at (e : nat) (v : Z) : nat -> signals :=
  fun e' => mkSignals (if Nat.eqb e' e then v else 0) 0 0 0 0.

(** A module whose output is 0 up to edge [e] and [v] afterwards. *)
Definition step_after (e : nat) (v : Z) : nat -> signals :=
  fun e' => mkSignals (if Nat.leb e' e then 0 else v) 0 0 0 0.

(** ** The envelope generators of the module under test *)

Module Transpose.

(** Modelled from the spec: the pitch shifter itself (the Verilog module the
    bench instantiates) is not part of the available sources.  Per the spec,
    each engine's envelope state is "a phase value cycling over one grain
    period", the gain is "a triangular (or equivalent raised) gain window"
    with "its minimum exactly when the engine is nearest its wraparound" and
    "its maximum at mid-grain", both read engines advance by the phase
    increment shared by the pitch controller, and the two engines are
    "phase-offset at initialization by half a grain period".  [half] is half
    the grain period in phase units; gains are unsigned integers on the scale
    [0 .. half]; [inc t] is the phase increment in force at tick [t]. *)
Section Envelopes.

Variable half : Z.
Variable inc : nat -> Z.

Definition grain : Z := 2 * half.

Definition advance (p d : Z) : Z := (p + d) mod grain.

Fixpoint phase0 (t : nat) : Z :=
  match t with
  | O => 0
  | S t' => advance (phase0 t') (inc t')
  end.

Fixpoint phase1 (t : nat) : Z :=
  match t with
  | O => half
  | S t' => advance (phase1 t') (inc t')
  end.

Definition window (p : Z) : Z :=
  if p <? half then p else grain - p.

Definition env0 (t : nat) : Z := window (phase0 t).
Definition env1 (t : nat) : Z := window (phase1 t).

End Envelopes.

End Transpose.


(** ** Facts about the encoding *)

Lemma bits_from_signed_range (n : Z) :
  0 <= bits_from_signed n sample_width < 2 ^ 16.
Proof.
  unfold bits_from_signed, sample_width.
  apply Z.mod_pos_bound. lia.
Qed.

Lemma signed_from_bits_range (b : Z) :
  - 2 ^ 15 <= signed_from_bits b sample_width < 2 ^ 15.
Proof.
  unfold signed_from_bits, sample_width.
  change (16 - 1) with 15.
  pose proof (Z.mod_pos_bound b (2 ^ 16) ltac:(lia)) as Hu.
  destruct (Z.ltb_spec (b mod 2 ^ 16) (2 ^ 15)); lia.
Qed.

Lemma signed_from_bits_from_signed (n : Z) :
  - 2 ^ 15 <= n < 2 ^ 15 ->
  signed_from_bits (bits_from_signed n sample_width) sample_width = n.
Proof.
  intros Hn.
  unfold signed_from_bits, bits_from_signed, sample_width.
  change (16 - 1) with 15.
  rewrite Z.mod_mod by lia.
  destruct (Z_lt_le_dec n 0) as [Hneg | Hpos].
  - assert (Hm : n mod 2 ^ 16 = n + 2 ^ 16).
    { symmetry. apply (Z.mod_unique n (2 ^ 16) (-1)); lia. }
    rewrite Hm.
    destruct (Z.ltb_spec (n + 2 ^ 16) (2 ^ 15)); lia.
  - rewrite Z.mod_small by lia.
    destruct (Z.ltb_spec n (2 ^ 15)); lia.
Qed.

Example bits_from_signed_minus_one : bits_from_signed (-1) sample_width = 65535.
Proof. reflexivity. Qed.

Example signed_from_bits_top_bit :
  signed_from_bits 32767 sample_width = 32767 /\
  signed_from_bits 32768 sample_width = -32768 /\
  signed_from_bits 65535 sample_width = -1.
Proof. repeat split; reflexivity. Qed.

(** ** Facts about the stimulus *)

(** [py_int] is truncation toward zero: the result is no further from zero
    than its argument, and less than one away from it. *)
Lemma py_int_toward_zero (x : R) :
  (Rabs (IZR (py_int x)) <= Rabs x /\ Rabs (x - IZR (py_int x)) < 1)%R.
Proof.
  unfold py_int.
  destruct (Rle_dec 0 x) as [Hx | Hx].
  - destruct (base_Int_part x) as [Hlo Hhi].
    assert (H0 : (0 <= IZR (Int_part x))%R).
    { apply IZR_le.
      assert (Hlt : (IZR (-1) < IZR (Int_part x))%R) by (simpl; lra).
      apply lt_IZR in Hlt. lia. }
    split.
    + rewrite !Rabs_pos_eq by lra. lra.
    + apply Rabs_def1; lra.
  - destruct (base_Int_part (- x)) as [Hlo Hhi].
    assert (H0 : (0 <= IZR (Int_part (- x)))%R).
    { apply IZR_le.
      assert (Hlt : (IZR (-1) < IZR (Int_part (- x)))%R) by (simpl; lra).
      apply lt_IZR in Hlt. lia. }
    rewrite opp_IZR.
    split.
    + rewrite Rabs_Ropp, Rabs_pos_eq by lra.
      rewrite Rabs_left1 by lra. lra.
    + apply Rabs_def1; lra.
Qed.

Lemma py_int_bound (x : R) (m : Z) :
  (Rabs x <= IZR m)%R -> - m <= py_int x <= m.
Proof.
  intros Hx.
  destruct (py_int_toward_zero x) as [Habs _].
  assert (Hle : (Rabs (IZR (py_int x)) <= IZR m)%R) by lra.
  rewrite <- abs_IZR in Hle.
  apply le_IZR in Hle. lia.
Qed.

Lemma data_in_bound (i : nat) : - 1000 <= data_in i <= 1000.
Proof.
  unfold data_in.
  pose proof (SIN_bound (INR i / 100)) as [Hlo Hhi].
  pose proof (py_int_bound (1000 * sin (INR i / 100)) 1000) as Hb.
  lapply Hb; [lia | apply Rabs_le; lra].
Qed.

Lemma data_in_roundtrip (i : nat) :
  signed_from_bits (bits_from_signed (data_in i) sample_width) sample_width
  = data_in i.
Proof.
  apply signed_from_bits_from_signed.
  pose proof (data_in_bound i). lia.
Qed.

(** Taylor bound: [sin (1/100)] lies strictly between 0.0095 and 0.01. *)
Lemma sin_one_hundredth : (95 / 10000 < sin (1 / 100) < 1 / 100)%R.
Proof.
  split.
  - assert (Hpi : (1 / 100 <= PI)%R) by (pose proof PI2_1; lra).
    destruct (SIN (1 / 100)%R ltac:(lra) Hpi) as [Hlb _].
    eapply Rlt_le_trans; [|exact Hlb].
    unfold sin_lb, sin_approx, sin_term.
    cbn [sum_f_R0 Nat.mul Nat.add pow fact].
    rewrite !INR_IZR_INZ.
    cbn. lra.
  - apply sin_lt_x. lra.
Qed.

Lemma data_in_0 : data_in 0 = 0.
Proof.
  unfold data_in. simpl INR.
  replace (0 / 100)%R with 0%R by lra.
  rewrite sin_0, Rmult_0_r.
  unfold py_int.
  destruct (Rle_dec 0 0) as [_ | H]; [|lra].
  symmetry. apply Int_part_spec. simpl. lra.
Qed.

Lemma data_in_1 : data_in 1 = 9.
Proof.
  unfold data_in. simpl INR.
  pose proof sin_one_hundredth as [Hlo Hhi].
  unfold py_int.
  destruct (Rle_dec 0 (1000 * sin (1 / 100))) as [_ | H]; [|lra].
  symmetry. apply Int_part_spec. simpl. lra.
Qed.
(** ** The loops *)

Ltac conjuncts := repeat match goal with |- _ /\ _ => split end.

Lemma for_each_app (l1 l2 : list nat) (body : nat -> Tb unit) (s : tb) :
  for_each (l1 ++ l2) body s = (for_each l1 body ;; for_each l2 body) s.
Proof.
  revert s. induction l1 as [|i l1 IH]; intros s.
  - reflexivity.
  - simpl. unfold bind.
    destruct (body i s) as [[[]|] s']; [|reflexivity].
    rewrite IH. reflexivity.
Qed.

Lemma for_range_S (n : nat) (body : nat -> Tb unit) (s : tb) :
  for_range (S n) body s = (for_range n body ;; body n) s.
Proof.
  unfold for_range. rewrite seq_S, for_each_app.
  unfold bind. destruct (for_each (seq 0 n) body s) as [[[]|] s'];
    [|reflexivity].
  simpl. unfold bind, ret. destruct (body n s') as [[[]|] s'']; reflexivity.
Qed.

(** A loop rule with a normal and an exceptional postcondition: [P i] holds
    before iteration [i], [Q i] when iteration [i] raises. *)
Lemma for_range_rule (P Q : nat -> tb -> Prop) (body : nat -> Tb unit)
      (s0 : tb) :
  P O s0 ->
  (forall i s, P i s ->
     match body i s with
     | (Normal _, s') => P (S i) s'
     | (AssertionError, s') => Q i s'
     end) ->
  forall n,
    match for_range n body s0 with
    | (Normal _, s') => P n s'
    | (AssertionError, s') => exists i, (i < n)%nat /\ Q i s'
    end.
Proof.
  intros H0 Hstep. induction n as [|n IH].
  - exact H0.
  - rewrite for_range_S. unfold bind.
    destruct (for_range n body s0) as [[[]|] s'].
    + specialize (Hstep n s' IH).
      destruct (body n s') as [[[]|] s'']; [exact Hstep|].
      exists n. split; [lia | exact Hstep].
    + destruct IH as (i & Hi & HQ). exists i. split; [lia | exact HQ].
Qed.

(** Once a prefix of the loop has raised, every longer prefix ends in the
    same state. *)
Lemma for_range_raised (n m : nat) (body : nat -> Tb unit) (s s' : tb) :
  (n <= m)%nat ->
  for_range n body s = (AssertionError, s') ->
  for_range m body s = (AssertionError, s').
Proof.
  intros Hnm Hn. induction Hnm as [|m Hnm IH]; [exact Hn|].
  rewrite for_range_S. unfold bind. rewrite IH. reflexivity.
Qed.

Lemma warmup_loop_run (k : nat) (s : tb) :
  warmup_loop k s =
  (Normal tt, mkTb (k + edges s) (sample_in s) (pitch s)
                   (data_out_last s) (breaknext s) (stdout s)).
Proof.
  unfold warmup_loop. induction k as [|k IH].
  - destruct s; reflexivity.
  - rewrite for_range_S. unfold bind. rewrite IH. reflexivity.
Qed.

Lemma warm_state :
  (setup ;; warmup_loop 1024 ;; init_locals) tb0 = (Normal tt, tb_warm).
Proof.
  unfold bind at 1. change (setup tb0)
    with (Normal tt, mkTb 0 (Some 0) (Some (5000 * 4)) None false []).
  cbv beta iota. unfold bind at 1. rewrite warmup_loop_run.
  reflexivity.
Qed.

Lemma test_prefix_warm (dut : nat -> signals) (n : nat) :
  test_prefix dut n tb0 = stimulus_loop dut n tb_warm.
Proof.
  unfold test_prefix.
  transitivity
    (((setup ;; warmup_loop 1024 ;; init_locals) ;; stimulus_loop dut n) tb0).
  - unfold bind. destruct (setup tb0) as [[[]|] s1]; [|reflexivity].
    destruct (warmup_loop 1024 s1) as [[[]|] s2]; reflexivity.
  - unfold bind at 1. rewrite warm_state. reflexivity.
Qed.

Lemma test_is_prefix (dut : nat -> signals) :
  test_transpose_00 dut = test_prefix dut 2048.
Proof. unfold test_transpose_00, test_prefix. reflexivity. Qed.

(** ** One iteration of the stimulus loop *)

Section Iteration.

Variable dut : nat -> signals.

(** The decoded output sampled by an iteration entered in state [s]. *)
Let sampled (s : tb) : Z :=
  signed_from_bits (sample_out (dut (S (edges s)))) sample_width.

Let driven (i : nat) : option Z :=
  Some (bits_from_signed (data_in i) sample_width).

(** No previous sample: nothing is compared. *)
Lemma stim_body_first (i : nat) (s : tb) :
  data_out_last s = None ->
  stim_body dut i s =
  (Normal tt,
   mkTb (S (edges s)) (driven i) (pitch s) (Some (sampled s)) (breaknext s)
        (out_line i (sampled s) :: in_line i (data_in i) :: stdout s)).
Proof.
  intros Hlast. destruct s as [e si p last bn out].
  simpl in Hlast. subst last. reflexivity.
Qed.

(** The four debug lines printed once a previous sample exists. *)
Let taps (s : tb) : list line :=
  let now := dut (S (edges s)) in
  [env1_line (env1 now); del1_line (delay_out1 now);
   env0_line (env0 now); del0_line (delay_out0 now)].

(** A previous sample and a discontinuity pending: the assertion fires. *)
Lemma stim_body_pending (i : nat) (s : tb) (l : Z) :
  data_out_last s = Some l ->
  breaknext s = true ->
  stim_body dut i s =
  (AssertionError,
   mkTb (S (edges s)) (driven i) (pitch s) (Some l) true
        (found_line :: taps s ++
         out_line i (sampled s) :: in_line i (data_in i) :: stdout s)).
Proof.
  intros Hlast Hbn. destruct s as [e si p last bn out].
  simpl in Hlast, Hbn. subst last bn. reflexivity.
Qed.

(** A previous sample and nothing pending: the delta is compared with the
    threshold and the outcome is recorded in [breaknext]. *)
Lemma stim_body_compare (i : nat) (s : tb) (l : Z) :
  data_out_last s = Some l ->
  breaknext s = false ->
  stim_body dut i s =
  (Normal tt,
   mkTb (S (edges s)) (driven i) (pitch s) (Some (sampled s))
        (50 <? Z.abs (sampled s - l))
        ((if 50 <? Z.abs (sampled s - l) then [rule_line] else []) ++
         taps s ++
         out_line i (sampled s) :: in_line i (data_in i) :: stdout s)).
Proof.
  intros Hlast Hbn. destruct s as [e si p last bn out].
  simpl in Hlast, Hbn. subst last bn.
  cbv [stim_body bind read get print modify rising_edge drive_sample_in
       set_data_out_last set_breaknext ret sampled taps driven app
       edges sample_in pitch data_out_last breaknext stdout].
  destruct (50 <? Z.abs _); reflexivity.
Qed.

(** Whatever the state, an iteration leaves [pitch] alone, consumes one
    edge and drives the encoded stimulus. *)
Lemma stim_body_frame (i : nat) (s : tb) :
  let s' := snd (stim_body dut i s) in
  pitch s' = pitch s /\ edges s' = S (edges s) /\ sample_in s' = driven i.
Proof.
  destruct (data_out_last s) as [l|] eqn:Hlast.
  - destruct (breaknext s) eqn:Hbn.
    + rewrite (stim_body_pending i s l Hlast Hbn). simpl. auto.
    + rewrite (stim_body_compare i s l Hlast Hbn). simpl. auto.
  - rewrite (stim_body_first i s Hlast). simpl. auto.
Qed.

End Iteration.

(** ** The stimulus loop *)

Section Run.

Variable dut : nat -> signals.

Lemma line_ok_samples (i : nat) (s : tb) (out : list line) :
  edges s = (1024 + i)%nat ->
  Forall (line_ok dut) out ->
  Forall (line_ok dut)
    (out_line i (signed_from_bits (sample_out (dut (S (edges s))))
                                  sample_width)
     :: in_line i (data_in i) :: out).
Proof.
  intros He Hout.
  replace (S (edges s)) with (1025 + i)%nat by lia.
  constructor; [|constructor; [reflexivity | exact Hout]].
  split; [reflexivity | apply signed_from_bits_range].
Qed.

Lemma loop_inv_step (i : nat) (s : tb) :
  loop_inv dut i s ->
  match stim_body dut i s with
  | (Normal _, s') => loop_inv dut (S i) s'
  | (AssertionError, s') => raised_at dut i s'
  end.
Proof.
  intros (He & Hp & Hsi & Hlast & Hbn & Hquiet & Hlog).
  pose proof (line_ok_samples i s (stdout s) He Hlog) as Hlog'.
  destruct i as [|m].
  - rewrite (stim_body_first dut 0 s Hlast).
    unfold loop_inv; cbn [edges sample_in pitch data_out_last breaknext stdout].
    replace (S (edges s)) with (1025 + 0)%nat in * by lia.
    conjuncts; try assumption; reflexivity.
  - destruct (breaknext s) eqn:Hb.
    + rewrite (stim_body_pending dut (S m) s _ Hlast Hb).
      destruct m as [|m']; [discriminate|].
      unfold raised_at, first_discontinuity;
        cbn [edges sample_in pitch data_out_last breaknext stdout].
      replace (S (S m') - 1)%nat with (S m') in * by lia.
      conjuncts; try assumption; try reflexivity; try lia.
      * symmetry; exact Hbn.
      * eexists. split; [reflexivity|].
        repeat (constructor; [exact I|]). exact Hlog'.
    + rewrite (stim_body_compare dut (S m) s _ Hlast Hb).
      unfold loop_inv;
        cbn [edges sample_in pitch data_out_last breaknext stdout].
      replace (S (S m) - 1)%nat with (S m) by lia.
      replace (S (edges s)) with (1025 + S m)%nat in * by lia.
      conjuncts; try assumption; try reflexivity.
      * unfold discontinuity.
        replace (S m - 1)%nat with m by lia. reflexivity.
      * intros j Hj.
        destruct (Nat.eq_dec j m) as [-> | Hne].
        -- destruct m as [|m']; [lia|]. symmetry; exact Hbn.
        -- apply Hquiet. lia.
      * apply Forall_app. split.
        -- destruct (50 <? _); repeat constructor.
        -- repeat (constructor; [exact I|]). exact Hlog'.
Qed.

Lemma loop_inv_warm : loop_inv dut 0 tb_warm.
Proof.
  unfold loop_inv, tb_warm;
    cbn [edges sample_in pitch data_out_last breaknext stdout].
  conjuncts; try reflexivity.
  - intros j Hj. lia.
  - constructor.
Qed.

(** Every prefix of the stimulus loop, characterised. *)
Lemma stimulus_loop_spec (n : nat) :
  match stimulus_loop dut n tb_warm with
  | (Normal _, s) => loop_inv dut n s
  | (AssertionError, s) => exists k, (k < n)%nat /\ raised_at dut k s
  end.
Proof.
  unfold stimulus_loop.
  apply for_range_rule.
  - apply loop_inv_warm.
  - apply loop_inv_step.
Qed.

End Run.

(** ** Runs of the bench *)

Section Runs.

Variable dut : nat -> signals.

(** A prefix of the bench either ran through or raised at some iteration. *)
Lemma test_prefix_cases (n : nat) :
  (exists s, test_prefix dut n tb0 = (Normal tt, s) /\ loop_inv dut n s) \/
  (exists s k, test_prefix dut n tb0 = (AssertionError, s) /\
               (k < n)%nat /\ raised_at dut k s).
Proof.
  rewrite test_prefix_warm.
  pose proof (stimulus_loop_spec dut n) as Hspec.
  destruct (stimulus_loop dut n tb_warm) as [[[]|] s].
  - left. exists s. auto.
  - right. destruct Hspec as (k & Hk & Hr). exists s, k. auto.
Qed.

(** No discontinuity before index [m]: the first [m + 1] iterations pass. *)
Lemma test_prefix_normal (m : nat) :
  quiet_before dut m ->
  exists s, test_prefix dut (S m) tb0 = (Normal tt, s) /\
            loop_inv dut (S m) s.
Proof.
  intros Hquiet.
  destruct (test_prefix_cases (S m)) as [H | (s & k & _ & Hk & Hr)];
    [exact H|].
  destruct Hr as (Hk2 & (_ & Hdisc & _) & _).
  rewrite Hquiet in Hdisc by lia. discriminate.
Qed.

(** A first discontinuity at index [i]: every prefix that includes iteration
    [i + 1] has raised there. *)
Lemma test_prefix_raised (i n : nat) :
  first_discontinuity dut i ->
  (i + 2 <= n)%nat ->
  exists s, test_prefix dut n tb0 = (AssertionError, s) /\
            raised_at dut (S i) s.
Proof.
  intros (Hi & Hdisc & Hquiet) Hn.
  destruct (test_prefix_cases n) as [(s & _ & Hinv) | (s & k & Hrun & Hk & Hr)].
  - destruct Hinv as (_ & _ & _ & _ & _ & Hq & _).
    rewrite Hq in Hdisc by lia. discriminate.
  - exists s. split; [exact Hrun|].
    assert (Hki : k = S i).
    { destruct Hr as (Hk2 & (_ & Hdk & Hqk) & _).
      destruct (Nat.lt_trichotomy (k - 1) i) as [Hlt | [Heq | Hgt]].
      - rewrite Hquiet in Hdk by lia. discriminate.
      - lia.
      - rewrite Hqk in Hdisc by lia. discriminate. }
    subst k. exact Hr.
Qed.

(** The state after one more iteration, when the prefix before it passed. *)
Lemma test_prefix_S (n : nat) (s : tb) :
  test_prefix dut n tb0 = (Normal tt, s) ->
  test_prefix dut (S n) tb0 = stim_body dut n s.
Proof.
  rewrite !test_prefix_warm. unfold stimulus_loop. intros Hn.
  rewrite for_range_S. unfold bind. rewrite Hn. reflexivity.
Qed.

(** Once a prefix has raised, every longer prefix ends in the same state. *)
Lemma test_prefix_raised_same (n m : nat) (s : tb) :
  (n <= m)%nat ->
  test_prefix dut n tb0 = (AssertionError, s) ->
  test_prefix dut m tb0 = (AssertionError, s).
Proof.
  rewrite !test_prefix_warm. unfold stimulus_loop.
  apply for_range_raised.
Qed.

(** A checker for [quiet_before]. *)
Lemma quiet_before_check (i : nat) :
  forallb (fun j => negb (discontinuity dut j)) (seq 1 (i - 1)) = true ->
  quiet_before dut i.
Proof.
  intros Hall j Hj.
  rewrite forallb_forall in Hall.
  apply negb_true_iff. apply Hall.
  apply in_seq. lia.
Qed.

End Runs.

(** The bench never reads the module before the first stimulus edge. *)
Lemma stim_body_ext (dut dut' : nat -> signals) (i : nat) (s : tb) :
  (forall e, (1025 <= e)%nat -> dut' e = dut e) ->
  (1024 <= edges s)%nat ->
  stim_body dut' i s = stim_body dut i s.
Proof.
  intros Hext He.
  assert (Hnow : dut' (S (edges s)) = dut (S (edges s))) by (apply Hext; lia).
  destruct (data_out_last s) as [l|] eqn:Hlast.
  - destruct (breaknext s) eqn:Hbn.
    + rewrite !(stim_body_pending _ i s l Hlast Hbn), Hnow. reflexivity.
    + rewrite !(stim_body_compare _ i s l Hlast Hbn), Hnow. reflexivity.
  - rewrite !(stim_body_first _ i s Hlast), Hnow. reflexivity.
Qed.

Lemma test_prefix_ext (dut dut' : nat -> signals) (n : nat) :
  (forall e, (1025 <= e)%nat -> dut' e = dut e) ->
  test_prefix dut' n tb0 = test_prefix dut n tb0.
Proof.
  intros Hext. rewrite !test_prefix_warm. unfold stimulus_loop.
  induction n as [|n IH]; [reflexivity|].
  rewrite !for_range_S. unfold bind. rewrite IH.
  pose proof (stimulus_loop_spec dut n) as Hspec.
  unfold stimulus_loop in Hspec.
  destruct (for_range n (stim_body dut) tb_warm) as [[[]|] s];
    [|reflexivity].
  apply stim_body_ext; [exact Hext|].
  destruct Hspec as (He & _). lia.
Qed.

(** ** Warm-up *)

(** C5.  Before the sine stimulus begins the bench drives [sample_in] to zero
    and lets exactly 1024 rising edges of the sample clock go by: after [k]
    warm-up edges the input is still the zero driven at the start, nothing has
    been printed or compared; the stimulus loop is entered after edge 1024 in
    that very state; and what the module outputs up to edge 1024 has no
    influence on the run, because it is never sampled. *)
Theorem warmup_zero_fill :
  (forall k,
     (setup ;; warmup_loop k) tb0 =
     (Normal tt, mkTb k (Some 0) (Some 20000) None false [])) /\
  (forall dut,
     test_prefix dut 0 tb0 =
     (Normal tt, mkTb 1024 (Some 0) (Some 20000) None false [])) /\
  (forall dut dut',
     (forall e, (1025 <= e)%nat -> dut' e = dut e) ->
     test_transpose_00 dut' tb0 = test_transpose_00 dut tb0).
Proof.
  split; [|split].
  - intros k. unfold bind at 1.
    change (setup tb0)
      with (Normal tt, mkTb 0 (Some 0) (Some 20000) None false []).
    cbv beta iota. rewrite warmup_loop_run.
    cbn [edges sample_in pitch data_out_last breaknext stdout].
    rewrite Nat.add_0_r. reflexivity.
  - intros dut. rewrite test_prefix_warm. reflexivity.
  - intros dut dut' Hext. rewrite !test_is_prefix.
    apply test_prefix_ext. exact Hext.
Qed.

(** ** The pitch control *)

(** C8.  The pitch control is undriven before the bench starts, is set to
    5000*4 = 20000 by the first statements, and holds that value after every
    warm-up edge, after every prefix of the stimulus loop and at the end of
    the test, whether it passed or failed. *)
Theorem pitch_constant (dut : nat -> signals) :
  pitch tb0 = None /\
  5000 * 4 = 20000 /\
  pitch (snd (setup tb0)) = Some 20000 /\
  (forall k, pitch (snd ((setup ;; warmup_loop k) tb0)) = Some 20000) /\
  (forall n, pitch (snd (test_prefix dut n tb0)) = Some 20000) /\
  pitch (snd (test_transpose_00 dut tb0)) = Some 20000.
Proof.
  assert (Hprefix : forall n, pitch (snd (test_prefix dut n tb0)) = Some 20000).
  { intros n.
    destruct (test_prefix_cases dut n)
      as [(s & -> & Hinv) | (s & k & -> & _ & Hr)].
    - destruct Hinv as (_ & Hp & _). exact Hp.
    - destruct Hr as (_ & _ & _ & Hp & _). exact Hp. }
  conjuncts; try reflexivity.
  - intros k. unfold bind at 1.
    change (setup tb0)
      with (Normal tt, mkTb 0 (Some 0) (Some 20000) None false []).
    cbv beta iota. rewrite warmup_loop_run. reflexivity.
  - exact Hprefix.
  - rewrite test_is_prefix. apply Hprefix.
Qed.

(** ** The first stimulus sample *)

(** C10.  The output sampled by the first stimulus iteration is not checked:
    the loop is entered with no previous sample recorded, and whatever the
    module outputs, the iteration ends normally with nothing flagged, having
    printed only its input and output lines. *)
Theorem first_sample_exempt (dut : nat -> signals) :
  data_out_last (snd (test_prefix dut 0 tb0)) = None /\
  test_prefix dut 1 tb0 =
  (Normal tt,
   mkTb 1025 (Some (bits_from_signed (data_in 0) sample_width)) (Some 20000)
        (Some (data_out_at dut 0)) false
        [out_line 0 (data_out_at dut 0); in_line 0 (data_in 0)]).
Proof.
  assert (H0 : test_prefix dut 0 tb0 = (Normal tt, tb_warm)).
  { rewrite test_prefix_warm. reflexivity. }
  split.
  - rewrite H0. reflexivity.
  - rewrite (test_prefix_S dut 0 tb_warm H0).
    rewrite stim_body_first by reflexivity.
    reflexivity.
Qed.

(** ** Discontinuities *)

(** The threshold is strict: a step of 50 is not a discontinuity, a step of
    51 is. *)
Example threshold_is_strict :
  discontinuity (step_after 1030 50) 6 = false /\
  discontinuity (step_after 1030 51) 6 = true /\
  discontinuity (step_after 1030 (-51)) 6 = true.
Proof. repeat split; vm_compute; reflexivity. Qed.

(** C9.  Whatever the module outputs, if the threshold is exceeded for the
    first time at the last stimulus iteration (index 2047), the test runs to
    completion without an assertion failure: the discontinuity is flagged in
    [breaknext], but there is no further iteration to report it. *)
Theorem last_discontinuity_unreported (dut : nat -> signals) :
  first_discontinuity dut 2047 ->
  exists s,
    test_transpose_00 dut tb0 = (Normal tt, s) /\
    breaknext s = true /\
    ~ In found_line (stdout s).
Proof.
  intros (_ & Hdisc & Hquiet).
  rewrite test_is_prefix. change 2048%nat with (S 2047).
  destruct (test_prefix_normal dut 2047 Hquiet) as (s & Hrun & Hinv).
  exists s. split; [exact Hrun|].
  destruct Hinv as (_ & _ & _ & _ & Hbn & _ & Hlog).
  split.
  - rewrite Hbn. exact Hdisc.
  - intros Hin. rewrite Forall_forall in Hlog. exact (Hlog _ Hin).
Qed.

Lemma last_discontinuity_unreported_witness :
  first_discontinuity (spike_at 3072 51) 2047 /\
  exists s,
    test_transpose_00 (spike_at 3072 51) tb0 = (Normal tt, s) /\
    breaknext s = true /\
    ~ In found_line (stdout s).
Proof.
  assert (H : first_discontinuity (spike_at 3072 51) 2047).
  { split; [lia|]. split.
    - vm_compute. reflexivity.
    - apply quiet_before_check. vm_compute. reflexivity. }
  split; [exact H|].
  apply (last_discontinuity_unreported (spike_at 3072 51) H).
Defined.

(** C1, at the input on which the code departs from it: a module silent
    except for an output of 51 at the last stimulus iteration.  The delta of
    51 is flagged (the rule is printed, [breaknext] is set), yet the test
    passes. *)
Theorem flagged_at_last_iteration_passes :
  discontinuity (spike_at 3072 51) 2047 = true /\
  fst (test_transpose_00 (spike_at 3072 51) tb0) = Normal tt /\
  breaknext (snd (test_transpose_00 (spike_at 3072 51) tb0)) = true /\
  hd_error (stdout (snd (test_transpose_00 (spike_at 3072 51) tb0)))
  = Some rule_line.
Proof.
  conjuncts.
  - vm_compute. reflexivity.
  - lazy. reflexivity.
  - lazy. reflexivity.
  - lazy. reflexivity.
Qed.

(** C2, as the code has it.  When the first discontinuity is observed at a
    stimulus iteration [i] before the last, the bench has not failed by the
    end of that iteration; it fails by assertion at iteration [i + 1], after
    edge [1026 + i], whatever the module outputs from then on, and no later
    iteration runs. *)
Theorem discontinuity_fails_next_tick (dut : nat -> signals) (i : nat) :
  first_discontinuity dut i ->
  (i <= 2046)%nat ->
  fst (test_prefix dut (S i) tb0) = Normal tt /\
  exists s,
    test_transpose_00 dut tb0 = (AssertionError, s) /\
    edges s = (1026 + i)%nat /\
    breaknext s = true /\
    hd_error (stdout s) = Some found_line /\
    forall n, (i + 2 <= n)%nat -> test_prefix dut n tb0 = (AssertionError, s).
Proof.
  intros Hfirst Hi. split.
  - destruct Hfirst as (_ & _ & Hquiet).
    destruct (test_prefix_normal dut i Hquiet) as (s & -> & _). reflexivity.
  - rewrite test_is_prefix.
    destruct (test_prefix_raised dut i (i + 2) Hfirst (Nat.le_refl _))
      as (s & Hrun & Hr).
    exists s.
    destruct Hr as (_ & _ & He & _ & _ & _ & Hbn & rest & Hout & _).
    conjuncts.
    + apply (test_prefix_raised_same dut (i + 2)); [lia | exact Hrun].
    + lia.
    + exact Hbn.
    + rewrite Hout. reflexivity.
    + intros n Hn.
      apply (test_prefix_raised_same dut (i + 2)); [lia | exact Hrun].
Qed.

Lemma discontinuity_fails_next_tick_witness :
  first_discontinuity (step_after 1025 51) 1 /\
  (1 <= 2046)%nat /\
  fst (test_prefix (step_after 1025 51) 2 tb0) = Normal tt /\
  exists s,
    test_transpose_00 (step_after 1025 51) tb0 = (AssertionError, s) /\
    edges s = 1027%nat /\
    breaknext s = true /\
    hd_error (stdout s) = Some found_line /\
    forall n, (1 + 2 <= n)%nat ->
              test_prefix (step_after 1025 51) n tb0 = (AssertionError, s).
Proof.
  assert (H : first_discontinuity (step_after 1025 51) 1).
  { split; [lia|]. split.
    - vm_compute. reflexivity.
    - apply quiet_before_check. vm_compute. reflexivity. }
  split; [exact H|]. split; [lia|].
  apply (discontinuity_fails_next_tick (step_after 1025 51) 1 H). lia.
Defined.

(** C2 as stated fails: here the only discontinuity is observed at stimulus
    iteration 1 (after edge 1026); at the end of that iteration the bench has
    not failed, and the assertion fires one tick later, after edge 1027, on
    an output that no longer moves. *)
Lemma discontinuity_not_fatal_on_detection :
  let dut := step_after 1025 51 in
  discontinuity dut 1 = true /\
  discontinuity dut 2 = false /\
  fst (test_prefix dut 2 tb0) = Normal tt /\
  edges (snd (test_prefix dut 2 tb0)) = 1026%nat /\
  fst (test_transpose_00 dut tb0) = AssertionError /\
  edges (snd (test_transpose_00 dut tb0)) = 1027%nat.
Proof.
  cbv zeta. conjuncts.
  - vm_compute. reflexivity.
  - vm_compute. reflexivity.
  - lazy. reflexivity.
  - lazy. reflexivity.
  - lazy. reflexivity.
  - lazy. reflexivity.
Qed.

(** ** The stimulus driven into the module *)

(** C3, as the code has it.  At every stimulus iteration [i] in 0..2047 that
    the bench reaches, the value driven into [sample_in] is the 16-bit
    encoding of [1000 * sin (i/100)] truncated toward zero (Python's [int]),
    not rounded: an integer no further from zero than the real value and
    less than one away from it, which the 16-bit encoding represents
    faithfully. *)
Theorem stimulus_is_truncated_sine (dut : nat -> signals) (i : nat) :
  (i < 2048)%nat ->
  fst (test_prefix dut i tb0) = Normal tt ->
  let s := snd (test_prefix dut (S i) tb0) in
  let x := (1000 * sin (INR i / 100))%R in
  sample_in s = Some (bits_from_signed (data_in i) sample_width) /\
  signed_from_bits (bits_from_signed (data_in i) sample_width) sample_width
  = data_in i /\
  (Rabs (IZR (data_in i)) <= Rabs x)%R /\
  (Rabs (x - IZR (data_in i)) < 1)%R.
Proof.
  intros _ Hreach. cbv zeta.
  destruct (test_prefix dut i tb0) as [r si] eqn:Hrun.
  simpl in Hreach. subst r.
  rewrite (test_prefix_S dut i si Hrun).
  destruct (stim_body_frame dut i si) as (_ & _ & Hdriven).
  conjuncts.
  - exact Hdriven.
  - apply data_in_roundtrip.
  - apply py_int_toward_zero.
  - apply py_int_toward_zero.
Qed.

Lemma stimulus_is_truncated_sine_witness :
  (1 < 2048)%nat /\
  fst (test_prefix (flat 0) 1 tb0) = Normal tt /\
  let s := snd (test_prefix (flat 0) 2 tb0) in
  let x := (1000 * sin (INR 1 / 100))%R in
  sample_in s = Some (bits_from_signed (data_in 1) sample_width) /\
  signed_from_bits (bits_from_signed (data_in 1) sample_width) sample_width
  = data_in 1 /\
  (Rabs (IZR (data_in 1)) <= Rabs x)%R /\
  (Rabs (x - IZR (data_in 1)) < 1)%R.
Proof.
  assert (H : fst (test_prefix (flat 0) 1 tb0) = Normal tt).
  { lazy. reflexivity. }
  split; [lia|]. split; [exact H|].
  apply (stimulus_is_truncated_sine (flat 0) 1); [lia | exact H].
Defined.

(** C3 as stated fails at stimulus index 1: [1000 * sin (1/100)] is about
    9.9998; the bench drives 9, which is not a nearest integer. *)
Lemma stimulus_not_rounded :
  data_in 1 = 9 /\
  ~ is_round (1000 * sin (INR 1 / 100)) (data_in 1) /\
  is_round (1000 * sin (INR 1 / 100)) 10 /\
  sample_in (snd (test_prefix (flat 0) 2 tb0)) = Some 9.
Proof.
  pose proof sin_one_hundredth as [Hlo Hhi].
  conjuncts.
  - exact data_in_1.
  - rewrite data_in_1. unfold is_round. simpl INR.
    rewrite Rabs_pos_eq by lra. lra.
  - unfold is_round. simpl INR.
    rewrite Rabs_left1 by lra. lra.
  - destruct (test_prefix_normal (flat 0) 1) as (s & Hrun & Hinv).
    { intros j Hj. lia. }
    rewrite Hrun. destruct Hinv as (_ & _ & Hsi & _).
    cbn [snd]. rewrite Hsi, data_in_1. reflexivity.
Qed.

(** ** Which samples are checked *)

(** C4, as the code has it.  The delta comparison starts at stimulus index 1,
    not at index 1024.  At index 0 nothing is compared.  At every index [i]
    in 1..2046 not preceded by a discontinuity, the iteration passes and
    records in [breaknext] whether the delta between samples [i - 1] and [i]
    exceeds 50, and the bench cut after iteration [i + 1] has failed exactly
    when it does. *)
Theorem delta_checked_from_index_1 (dut : nat -> signals) (i : nat) :
  (1 <= i <= 2046)%nat ->
  quiet_before dut i ->
  (fst (test_prefix dut 1 tb0) = Normal tt /\
   breaknext (snd (test_prefix dut 1 tb0)) = false) /\
  (fst (test_prefix dut (S i) tb0) = Normal tt /\
   breaknext (snd (test_prefix dut (S i) tb0)) = discontinuity dut i) /\
  (fst (test_prefix dut (S (S i)) tb0) = AssertionError <->
   discontinuity dut i = true).
Proof.
  intros Hi Hquiet.
  destruct (test_prefix_normal dut i Hquiet) as (s & Hrun & Hinv).
  destruct (test_prefix_normal dut 0) as (s0 & Hrun0 & Hinv0).
  { intros j Hj. lia. }
  conjuncts.
  - rewrite Hrun0. reflexivity.
  - rewrite Hrun0. destruct Hinv0 as (_ & _ & _ & _ & Hbn & _). exact Hbn.
  - rewrite Hrun. reflexivity.
  - rewrite Hrun. destruct Hinv as (_ & _ & _ & _ & Hbn & _).
    destruct i as [|i']; [lia | exact Hbn].
  - destruct (discontinuity dut i) eqn:Hdisc.
    + split; [reflexivity|]. intros _.
      destruct (test_prefix_raised dut i (S (S i))) as (s' & -> & _);
        [|lia|reflexivity].
      split; [lia|]. split; assumption.
    + split; [|discriminate]. intros Hfail.
      destruct (test_prefix_normal dut (S i)) as (s' & Hrun' & _).
      * intros j Hj. destruct (Nat.eq_dec j i) as [-> | Hne];
          [exact Hdisc | apply Hquiet; lia].
      * rewrite Hrun' in Hfail. discriminate.
Qed.

Lemma delta_checked_from_index_1_witness :
  (1 <= 1 <= 2046)%nat /\
  quiet_before (step_after 1025 51) 1 /\
  (fst (test_prefix (step_after 1025 51) 1 tb0) = Normal tt /\
   breaknext (snd (test_prefix (step_after 1025 51) 1 tb0)) = false) /\
  (fst (test_prefix (step_after 1025 51) 2 tb0) = Normal tt /\
   breaknext (snd (test_prefix (step_after 1025 51) 2 tb0))
   = discontinuity (step_after 1025 51) 1) /\
  (fst (test_prefix (step_after 1025 51) 3 tb0) = AssertionError <->
   discontinuity (step_after 1025 51) 1 = true).
Proof.
  assert (H : quiet_before (step_after 1025 51) 1).
  { apply quiet_before_check. vm_compute. reflexivity. }
  split; [lia|]. split; [exact H|].
  apply (delta_checked_from_index_1 (step_after 1025 51) 1); [lia | exact H].
Defined.

(** C4 as stated fails under either reading of its index.  Stimulus index:
    a module whose only excursion is at stimulus indices 1 and 2 (nothing
    moves from index 1024 on) fails the test.  Tick index: a module whose
    output jumps by 1000 between the last warm-up edge (1024) and the first
    stimulus edge (1025), and never moves again, passes. *)
Lemma delta_check_not_from_1024 :
  (forallb (fun i => negb (discontinuity (spike_at 1026 51) i))
           (seq 1024 1024) = true /\
   fst (test_transpose_00 (spike_at 1026 51) tb0) = AssertionError) /\
  ((50 <? Z.abs (signed_from_bits (sample_out (step_after 1024 1000 1025%nat))
                                  sample_width
                 - signed_from_bits (sample_out (step_after 1024 1000 1024%nat))
                                    sample_width)) = true /\
   fst (test_transpose_00 (step_after 1024 1000) tb0) = Normal tt).
Proof.
  conjuncts.
  - vm_compute. reflexivity.
  - lazy. reflexivity.
  - vm_compute. reflexivity.
  - lazy. reflexivity.
Qed.

(** ** Sample width *)

(** C7.  At every tick of the stimulus phase, whether the bench is still
    running or has just failed, the value on [sample_in] is the encoding at
    [sample_width] = 16 bits of the stimulus of the last iteration run: an
    unsigned 16-bit pattern that decodes back to the signed stimulus.  Every
    output the bench has printed is the decoding at 16 bits of what the
    module showed at that iteration, a signed 16-bit integer. *)
Theorem samples_are_16_bit_signed (dut : nat -> signals) (n : nat) :
  let s := snd (test_prefix dut (S n) tb0) in
  sample_width = 16 /\
  (exists i,
     (i <= n)%nat /\
     edges s = (1025 + i)%nat /\
     sample_in s = Some (bits_from_signed (data_in i) sample_width) /\
     0 <= bits_from_signed (data_in i) sample_width < 2 ^ 16 /\
     signed_from_bits (bits_from_signed (data_in i) sample_width) sample_width
     = data_in i) /\
  (forall i v,
     In (out_line i v) (stdout s) ->
     v = signed_from_bits (sample_out (dut (1025 + i)%nat)) sample_width /\
     - 2 ^ 15 <= v < 2 ^ 15).
Proof.
  cbv zeta. split; [reflexivity|].
  destruct (test_prefix_cases dut (S n))
    as [(s & -> & Hinv) | (s & k & -> & Hk & Hr)]; cbn [snd].
  - destruct Hinv as (He & _ & Hsi & _ & _ & _ & Hlog). split.
    + exists n. conjuncts.
      * lia.
      * lia.
      * exact Hsi.
      * apply bits_from_signed_range.
      * apply bits_from_signed_range.
      * apply data_in_roundtrip.
    + intros i v Hin. rewrite Forall_forall in Hlog.
      exact (Hlog _ Hin).
  - destruct Hr as (_ & _ & He & _ & Hsi & _ & _ & rest & Hout & Hlog). split.
    + exists k. conjuncts.
      * lia.
      * exact He.
      * exact Hsi.
      * apply bits_from_signed_range.
      * apply bits_from_signed_range.
      * apply data_in_roundtrip.
    + intros i v Hin. rewrite Hout in Hin.
      destruct Hin as [Hfound | Hin]; [discriminate|].
      rewrite Forall_forall in Hlog. exact (Hlog _ Hin).
Qed.

(** ** The complementary crossfade *)

Section Crossfade.

Variable half : Z.
Variable inc : nat -> Z.
Hypothesis half_pos : 0 < half.

Lemma phase0_range (t : nat) :
  0 <= Transpose.phase0 half inc t < Transpose.grain half.
Proof.
  unfold Transpose.grain. destruct t as [|t]; cbn [Transpose.phase0].
  - lia.
  - unfold Transpose.advance, Transpose.grain.
    apply Z.mod_pos_bound. lia.
Qed.

(** The second engine stays half a grain ahead of the first. *)
Lemma phase1_offset (t : nat) :
  Transpose.phase1 half inc t
  = (Transpose.phase0 half inc t + half) mod Transpose.grain half.
Proof.
  induction t as [|t IH]; cbn [Transpose.phase0 Transpose.phase1].
  - unfold Transpose.grain. rewrite Z.mod_small; lia.
  - unfold Transpose.advance. rewrite IH.
    rewrite !Zplus_mod_idemp_l. f_equal. lia.
Qed.

Lemma window_sum (p : Z) :
  0 <= p < Transpose.grain half ->
  Transpose.window half p
  + Transpose.window half ((p + half) mod Transpose.grain half)
  = half.
Proof.
  unfold Transpose.window, Transpose.grain. intros Hp.
  destruct (Z.ltb_spec p half) as [Hlt | Hge].
  - rewrite Z.mod_small by lia.
    destruct (Z.ltb_spec (p + half) half); lia.
  - replace ((p + half) mod (2 * half)) with (p - half).
    + destruct (Z.ltb_spec (p - half) half); lia.
    + apply (Z.mod_unique (p + half) (2 * half) 1); lia.
Qed.

End Crossfade.

(** C6.  In the envelope generators as the spec describes them (triangular
    windows over a grain of [2 * half] phase units, the engines started half
    a grain apart and advanced by the same increment every tick, whatever
    that increment is), the two gains sum to [half] at every tick, hence to
    the same value at any two ticks. *)
Theorem envelopes_sum_constant (half : Z) (inc : nat -> Z) :
  0 < half ->
  (forall t,
     Transpose.env0 half inc t + Transpose.env1 half inc t = half) /\
  (forall t t',
     Transpose.env0 half inc t + Transpose.env1 half inc t
     = Transpose.env0 half inc t' + Transpose.env1 half inc t').
Proof.
  intros Hhalf.
  assert (Hsum : forall t,
            Transpose.env0 half inc t + Transpose.env1 half inc t = half).
  { intros t. unfold Transpose.env0, Transpose.env1.
    rewrite (phase1_offset half inc Hhalf).
    apply (window_sum half Hhalf). apply (phase0_range half inc Hhalf). }
  split; [exact Hsum|].
  intros t t'. rewrite !Hsum. reflexivity.
Qed.

Lemma envelopes_sum_constant_witness :
  0 < 512 /\
  (forall t,
     Transpose.env0 512 (fun _ => 700) t + Transpose.env1 512 (fun _ => 700) t
     = 512) /\
  (forall t t',
     Transpose.env0 512 (fun _ => 700) t + Transpose.env1 512 (fun _ => 700) t
     = Transpose.env0 512 (fun _ => 700) t'
       + Transpose.env1 512 (fun _ => 700) t').
Proof.
  split; [lia|].
  apply (envelopes_sum_constant 512 (fun _ => 700)). lia.
Defined.

Example envelopes_at_tick_3 :
  Transpose.env0 512 (fun _ => 700) 3 = 52 /\
  Transpose.env1 512 (fun _ => 700) 3 = 460.
Proof. split; reflexivity. Qed.

(** ** The verdict *)

Section Verdict.

Variable dut : nat -> signals.

(** A prefix of [n] iterations has failed exactly when some delta exceeded
    the threshold early enough for the following iteration to be in it. *)
Lemma test_prefix_fails_iff (n : nat) :
  fst (test_prefix dut n tb0) = AssertionError <->
  exists i, (1 <= i)%nat /\ (i + 2 <= n)%nat /\ discontinuity dut i = true.
Proof.
  destruct (test_prefix_cases dut n)
    as [(s & Hrun & Hinv) | (s & k & Hrun & Hk & Hr)]; rewrite Hrun; cbn [fst].
  - split; [discriminate|].
    intros (i & Hi1 & Hi2 & Hdisc).
    destruct Hinv as (_ & _ & _ & _ & _ & Hquiet & _).
    rewrite Hquiet in Hdisc by lia. discriminate.
  - split; [|reflexivity]. intros _.
    destruct Hr as (Hk2 & (_ & Hdisc & _) & _).
    exists (k - 1)%nat. split; [lia|]. split; [lia | exact Hdisc].
Qed.

(** The number of edges a prefix of [n >= 1] iterations has awaited. *)
Lemma test_prefix_edges (n : nat) :
  let r := test_prefix dut (S n) tb0 in
  (1025 <= edges (snd r) <= 1025 + n)%nat /\
  (fst r = Normal tt -> edges (snd r) = (1025 + n)%nat).
Proof.
  cbv zeta.
  destruct (test_prefix_cases dut (S n))
    as [(s & -> & Hinv) | (s & k & -> & Hk & Hr)]; cbn [fst snd].
  - destruct Hinv as (He & _). lia.
  - destruct Hr as (_ & _ & He & _). split; [lia | discriminate].
Qed.

End Verdict.

(** The test fails exactly when the delta between two consecutive decoded
    outputs exceeds 50 at some stimulus index from 1 to 2046. *)
Theorem test_fails_iff_discontinuity (dut : nat -> signals) :
  fst (test_transpose_00 dut tb0) = AssertionError <->
  exists i, (1 <= i <= 2046)%nat /\ discontinuity dut i = true.
Proof.
  rewrite test_is_prefix, test_prefix_fails_iff.
  split; intros (i & H); exists i.
  - split; [lia | apply H].
  - split; [lia|]. split; [lia | apply H].
Qed.

(** Whatever the module does, the test is over within 3072 rising edges of
    the sample clock, samples the module at least once, and a passing test
    has awaited exactly 3072 edges. *)
Theorem test_awaits_at_most_3072_edges (dut : nat -> signals) :
  let r := test_transpose_00 dut tb0 in
  (1025 <= edges (snd r) <= 3072)%nat /\
  (fst r = Normal tt -> edges (snd r) = 3072%nat).
Proof.
  cbv zeta. rewrite test_is_prefix. change 2048%nat with (S 2047).
  pose proof (test_prefix_edges dut 2047) as [Hrange Hpass].
  split; [lia|]. intros H. rewrite (Hpass H). lia.
Qed.

(** ** What the bench samples *)

Lemma stim_body_ext_now (dut dut' : nat -> signals) (i : nat) (s : tb) :
  dut' (S (edges s)) = dut (S (edges s)) ->
  stim_body dut' i s = stim_body dut i s.
Proof.
  intros Hnow.
  destruct (data_out_last s) as [l|] eqn:Hlast.
  - destruct (breaknext s) eqn:Hbn.
    + rewrite !(stim_body_pending _ i s l Hlast Hbn), Hnow. reflexivity.
    + rewrite !(stim_body_compare _ i s l Hlast Hbn), Hnow. reflexivity.
  - rewrite !(stim_body_first _ i s Hlast), Hnow. reflexivity.
Qed.

Lemma test_prefix_ext_window (dut dut' : nat -> signals) (n : nat) :
  (forall e, (1025 <= e <= 1024 + n)%nat -> dut' e = dut e) ->
  test_prefix dut' n tb0 = test_prefix dut n tb0.
Proof.
  rewrite !test_prefix_warm. unfold stimulus_loop.
  induction n as [|n IH]; intros Hext; [reflexivity|].
  rewrite !for_range_S. unfold bind.
  rewrite IH by (intros e He; apply Hext; lia).
  pose proof (stimulus_loop_spec dut n) as Hspec.
  unfold stimulus_loop in Hspec.
  destruct (for_range n (stim_body dut) tb_warm) as [[[]|] s];
    [|reflexivity].
  apply stim_body_ext_now.
  destruct Hspec as (He & _). apply Hext. lia.
Qed.

(** The test samples the module only after the rising edges 1025 to 3072:
    two modules that show the same signals there give the same run, down to
    the last printed line. *)
Theorem test_samples_edges_1025_to_3072 (dut dut' : nat -> signals) :
  (forall e, (1025 <= e <= 3072)%nat -> dut' e = dut e) ->
  test_transpose_00 dut' tb0 = test_transpose_00 dut tb0.
Proof.
  intros Hext. rewrite !test_is_prefix.
  apply test_prefix_ext_window.
  intros e He. apply Hext. lia.
Qed.

Lemma test_samples_edges_1025_to_3072_witness :
  let dut' := fun e : nat =>
    if (Nat.leb 1025 e && Nat.leb e 3072)%bool
    then mkSignals 0 0 0 0 0 else mkSignals 999 1 2 3 4 in
  (forall e, (1025 <= e <= 3072)%nat -> dut' e = flat 0 e) /\
  test_transpose_00 dut' tb0 = test_transpose_00 (flat 0) tb0.
Proof.
  cbv zeta.
  match goal with |- (forall e, _ -> ?d e = _) /\ _ => set (dut' := d) end.
  assert (H : forall e, (1025 <= e <= 3072)%nat -> dut' e = flat 0 e).
  { intros e [Hlo Hhi]. unfold dut', flat.
    apply Nat.leb_le in Hlo. apply Nat.leb_le in Hhi.
    rewrite Hlo, Hhi. reflexivity. }
  split; [exact H|].
  apply (test_samples_edges_1025_to_3072 (flat 0) dut' H).
Defined.

(** ** The debug taps *)

Lemma stim_body_same_control (dut dut' : nat -> signals) (i : nat)
      (s s' : tb) :
  same_control s s' ->
  sample_out (dut' (S (edges s))) = sample_out (dut (S (edges s))) ->
  fst (stim_body dut' i s') = fst (stim_body dut i s) /\
  same_control (snd (stim_body dut i s)) (snd (stim_body dut' i s')).
Proof.
  intros (He & Hsi & Hp & Hlast & Hbn) Hout.
  destruct (data_out_last s) as [l|] eqn:Hl.
  - destruct (breaknext s) eqn:Hb.
    + rewrite (stim_body_pending dut i s l Hl Hb).
      rewrite (stim_body_pending dut' i s' l) by congruence.
      unfold same_control; cbn [fst snd edges sample_in pitch data_out_last
                                breaknext].
      conjuncts; congruence.
    + rewrite (stim_body_compare dut i s l Hl Hb).
      rewrite (stim_body_compare dut' i s' l) by congruence.
      unfold same_control; cbn [fst snd edges sample_in pitch data_out_last
                                breaknext].
      rewrite <- He, Hout. conjuncts; congruence.
  - rewrite (stim_body_first dut i s Hl).
    rewrite (stim_body_first dut' i s') by congruence.
    unfold same_control; cbn [fst snd edges sample_in pitch data_out_last
                              breaknext].
    rewrite <- He, Hout. conjuncts; congruence.
Qed.

Lemma stimulus_loop_same_control (dut dut' : nat -> signals) (n : nat) :
  (forall e, sample_out (dut' e) = sample_out (dut e)) ->
  fst (stimulus_loop dut' n tb_warm) = fst (stimulus_loop dut n tb_warm) /\
  same_control (snd (stimulus_loop dut n tb_warm))
               (snd (stimulus_loop dut' n tb_warm)).
Proof.
  intros Hout. unfold stimulus_loop.
  induction n as [|n [IHr IHs]].
  - split; [reflexivity|]. unfold same_control. conjuncts; reflexivity.
  - rewrite !for_range_S. unfold bind.
    destruct (for_range n (stim_body dut) tb_warm) as [r s].
    destruct (for_range n (stim_body dut') tb_warm) as [r' s'].
    cbn [fst snd] in IHr, IHs. subst r'.
    destruct r as [[]|].
    + apply stim_body_same_control; [exact IHs | apply Hout].
    + split; [reflexivity | exact IHs].
Qed.

(** The four debug signals ([delay_out0], [env0], [delay_out1], [env1]) are
    only printed: two modules with the same [sample_out] get the same verdict
    after the same number of edges, with the same inputs driven and the same
    values left in the bench's variables. *)
Theorem verdict_ignores_debug_taps (dut dut' : nat -> signals) :
  (forall e, sample_out (dut' e) = sample_out (dut e)) ->
  fst (test_transpose_00 dut' tb0) = fst (test_transpose_00 dut tb0) /\
  same_control (snd (test_transpose_00 dut tb0))
               (snd (test_transpose_00 dut' tb0)).
Proof.
  intros Hout. rewrite !test_is_prefix, !test_prefix_warm.
  apply stimulus_loop_same_control. exact Hout.
Qed.

Lemma verdict_ignores_debug_taps_witness :
  let dut' := fun e : nat =>
    mkSignals 0 (Z.of_nat e) 7 (- Z.of_nat e) 65535 in
  (forall e, sample_out (dut' e) = sample_out (flat 0 e)) /\
  fst (test_transpose_00 dut' tb0) = fst (test_transpose_00 (flat 0) tb0) /\
  same_control (snd (test_transpose_00 (flat 0) tb0))
               (snd (test_transpose_00 dut' tb0)).
Proof.
  cbv zeta.
  match goal with |- (forall e, sample_out (?d e) = _) /\ _ =>
    set (dut' := d) end.
  assert (H : forall e, sample_out (dut' e) = sample_out (flat 0 e)).
  { intros e. reflexivity. }
  split; [exact H|].
  apply (verdict_ignores_debug_taps (flat 0) dut' H).
Defined.

(** ** What is printed *)

Section Log.

Variable dut : nat -> signals.

(** Every iteration prints its input and output lines on top of the log. *)
Lemma stim_body_log (i : nat) (s : tb) :
  exists pre,
    stdout (snd (stim_body dut i s)) =
    pre ++ out_line i (signed_from_bits (sample_out (dut (S (edges s))))
                                        sample_width)
        :: in_line i (data_in i) :: stdout s.
Proof.
  destruct (data_out_last s) as [l|] eqn:Hl.
  - destruct (breaknext s) eqn:Hb.
    + rewrite (stim_body_pending dut i s l Hl Hb). cbn [snd stdout].
      exists [found_line;
              env1_line (env1 (dut (S (edges s))));
              del1_line (delay_out1 (dut (S (edges s))));
              env0_line (env0 (dut (S (edges s))));
              del0_line (delay_out0 (dut (S (edges s))))].
      reflexivity.
    + rewrite (stim_body_compare dut i s l Hl Hb). cbn [snd stdout].
      destruct (50 <? Z.abs _).
      * exists [rule_line;
                env1_line (env1 (dut (S (edges s))));
                del1_line (delay_out1 (dut (S (edges s))));
                env0_line (env0 (dut (S (edges s))));
                del0_line (delay_out0 (dut (S (edges s))))].
        reflexivity.
      * exists [env1_line (env1 (dut (S (edges s))));
                del1_line (delay_out1 (dut (S (edges s))));
                env0_line (env0 (dut (S (edges s))));
                del0_line (delay_out0 (dut (S (edges s))))].
        reflexivity.
  - rewrite (stim_body_first dut i s Hl). cbn [snd stdout].
    exists []. reflexivity.
Qed.

(** The rule is in the log exactly when [breaknext] is set. *)
Lemma rule_line_step (i : nat) (s : tb) :
  (In rule_line (stdout s) <-> breaknext s = true) ->
  match stim_body dut i s with
  | (Normal _, s') => In rule_line (stdout s') <-> breaknext s' = true
  | (AssertionError, s') => In rule_line (stdout s')
  end.
Proof.
  intros Hrule.
  destruct (data_out_last s) as [l|] eqn:Hl.
  - destruct (breaknext s) eqn:Hb.
    + rewrite (stim_body_pending dut i s l Hl Hb). cbn [stdout].
      right. apply in_or_app. right. right. right. apply Hrule. reflexivity.
    + rewrite (stim_body_compare dut i s l Hl Hb). cbn [stdout breaknext].
      destruct (50 <? Z.abs _).
      * split; [reflexivity|]. intros _. left. reflexivity.
      * cbn [app]. split; [|discriminate].
        intros [H | [H | [H | [H | [H | [H | H]]]]]]; try discriminate.
        apply Hrule. exact H.
  - rewrite (stim_body_first dut i s Hl). cbn [stdout breaknext].
    rewrite <- Hrule. split.
    + intros [H | [H | H]]; try discriminate. exact H.
    + intros H. right. right. exact H.
Qed.

Lemma rule_line_spec (n : nat) :
  match test_prefix dut n tb0 with
  | (Normal _, s) => In rule_line (stdout s) <-> breaknext s = true
  | (AssertionError, s) => In rule_line (stdout s)
  end.
Proof.
  rewrite test_prefix_warm. unfold stimulus_loop.
  pose proof (for_range_rule
                (fun _ s => In rule_line (stdout s) <-> breaknext s = true)
                (fun _ s => In rule_line (stdout s))
                (stim_body dut) tb_warm) as Hrule.
  cbv beta in Hrule.
  lapply Hrule.
  - clear Hrule. intros Hrule.
    specialize (Hrule (fun i s => rule_line_step i s) n).
    destruct (for_range n (stim_body dut) tb_warm) as [[[]|] s].
    + exact Hrule.
    + destruct Hrule as (_ & _ & H). exact H.
  - cbn [tb_warm stdout breaknext]. split; [intros [] | discriminate].
Qed.

(** The lines of every iteration that has run are in the log. *)
Lemma log_complete_spec (n : nat) :
  match test_prefix dut n tb0 with
  | (Normal _, s) =>
      forall i, (i < n)%nat ->
        In (in_line i (data_in i)) (stdout s) /\
        In (out_line i (data_out_at dut i)) (stdout s)
  | (AssertionError, s) =>
      forall i, (1025 + i <= edges s)%nat ->
        In (in_line i (data_in i)) (stdout s) /\
        In (out_line i (data_out_at dut i)) (stdout s)
  end.
Proof.
  rewrite test_prefix_warm. unfold stimulus_loop.
  pose proof (for_range_rule
    (fun n s => loop_inv dut n s /\
       forall i, (i < n)%nat ->
         In (in_line i (data_in i)) (stdout s) /\
         In (out_line i (data_out_at dut i)) (stdout s))
    (fun _ s =>
       forall i, (1025 + i <= edges s)%nat ->
         In (in_line i (data_in i)) (stdout s) /\
         In (out_line i (data_out_at dut i)) (stdout s))
    (stim_body dut) tb_warm) as Hrule.
  cbv beta in Hrule.
  lapply Hrule.
  - clear Hrule. intros Hrule. lapply Hrule.
    + clear Hrule. intros Hrule. specialize (Hrule n).
      destruct (for_range n (stim_body dut) tb_warm) as [[[]|] s].
      * apply Hrule.
      * destruct Hrule as (_ & _ & H). exact H.
    + clear Hrule. intros i s (Hinv & Hlog).
      pose proof (loop_inv_step dut i s Hinv) as Hstep.
      destruct (stim_body_log i s) as (pre & Hout).
      assert (He : S (edges s) = (1025 + i)%nat).
      { destruct Hinv as (He & _). lia. }
      rewrite He in Hout. fold (data_out_at dut i) in Hout.
      assert (Hall : forall j, (j < S i)%nat ->
                In (in_line j (data_in j))
                   (stdout (snd (stim_body dut i s))) /\
                In (out_line j (data_out_at dut j))
                   (stdout (snd (stim_body dut i s)))).
      { intros j Hj. rewrite Hout.
        destruct (Nat.eq_dec j i) as [-> | Hne].
        - split; apply in_or_app; right.
          + right. left. reflexivity.
          + left. reflexivity.
        - destruct (Hlog j ltac:(lia)) as [Hin1 Hin2].
          split; apply in_or_app; right; right; right; assumption. }
      destruct (stim_body dut i s) as [[[]|] s']; cbn [snd] in Hall.
      * split; [exact Hstep | exact Hall].
      * intros j Hj. apply Hall.
        destruct Hstep as (_ & _ & He' & _). lia.
  - split; [apply loop_inv_warm|]. intros i Hi. lia.
Qed.

End Log.

Lemma rule_line_prefix (dut : nat -> signals) (n : nat) :
  In rule_line (stdout (snd (test_prefix dut n tb0))) <->
  exists i, (1 <= i < n)%nat /\ discontinuity dut i = true.
Proof.
  pose proof (rule_line_spec dut n) as Hrule.
  destruct (test_prefix_cases dut n)
    as [(s & Hrun & Hinv) | (s & k & Hrun & Hk & Hr)];
    rewrite Hrun in *; cbn [snd].
  - rewrite Hrule. destruct Hinv as (_ & _ & _ & _ & Hbn & Hquiet & _).
    rewrite Hbn. split.
    + intros Hdisc. destruct n as [|[|m]]; try discriminate.
      exists (S m). split; [lia | exact Hdisc].
    + intros (i & Hi & Hdisc).
      destruct (Nat.eq_dec i (n - 1)) as [-> | Hne].
      * destruct n as [|[|m]]; try lia.
        replace (S (S m) - 1)%nat with (S m) in Hdisc by lia. exact Hdisc.
      * rewrite Hquiet in Hdisc by lia. discriminate.
  - split; [|intros _; exact Hrule]. intros _.
    destruct Hr as (Hk2 & (_ & Hdisc & _) & _).
    exists (k - 1)%nat. split; [lia | exact Hdisc].
Qed.

(** The line "FOUND A DISCONTINUITY - failing..." is printed exactly when
    the test fails. *)
Theorem found_line_iff_failed (dut : nat -> signals) :
  In found_line (stdout (snd (test_transpose_00 dut tb0))) <->
  fst (test_transpose_00 dut tb0) = AssertionError.
Proof.
  rewrite test_is_prefix.
  destruct (test_prefix_cases dut 2048)
    as [(s & -> & Hinv) | (s & k & -> & _ & Hr)]; cbn [fst snd].
  - split; [|discriminate]. intros Hin.
    destruct Hinv as (_ & _ & _ & _ & _ & _ & Hlog).
    rewrite Forall_forall in Hlog. destruct (Hlog _ Hin).
  - split; [reflexivity|]. intros _.
    destruct Hr as (_ & _ & _ & _ & _ & _ & _ & rest & -> & _).
    left. reflexivity.
Qed.

(** The rule "=========================" is printed exactly when the delta
    between two consecutive decoded outputs exceeds 50 at some stimulus index
    from 1 to 2047, the last one included. *)
Theorem rule_line_iff_discontinuity (dut : nat -> signals) :
  In rule_line (stdout (snd (test_transpose_00 dut tb0))) <->
  exists i, (1 <= i <= 2047)%nat /\ discontinuity dut i = true.
Proof.
  rewrite test_is_prefix, rule_line_prefix.
  split; intros (i & Hi & Hdisc); exists i; (split; [lia | exact Hdisc]).
Qed.

Lemma log_complete_prefix (dut : nat -> signals) (n i : nat) :
  (1025 + i <= edges (snd (test_prefix dut n tb0)))%nat ->
  In (in_line i (data_in i)) (stdout (snd (test_prefix dut n tb0))) /\
  In (out_line i (data_out_at dut i)) (stdout (snd (test_prefix dut n tb0))).
Proof.
  pose proof (log_complete_spec dut n) as Hlog.
  destruct (test_prefix_cases dut n)
    as [(s & Hrun & Hinv) | (s & k & Hrun & Hk & Hr)];
    rewrite Hrun in *; cbn [snd]; intros Hi.
  - apply Hlog. destruct Hinv as (He & _). lia.
  - apply Hlog. exact Hi.
Qed.

(** Every stimulus iteration that has run, the failing one included, has
    left in the log its input line with the stimulus value and its output
    line with the decoded output of the module. *)
Theorem log_has_every_iteration (dut : nat -> signals) (i : nat) :
  (1025 + i <= edges (snd (test_transpose_00 dut tb0)))%nat ->
  In (in_line i (data_in i)) (stdout (snd (test_transpose_00 dut tb0))) /\
  In (out_line i (data_out_at dut i))
     (stdout (snd (test_transpose_00 dut tb0))).
Proof.
  rewrite test_is_prefix. apply log_complete_prefix.
Qed.

Lemma log_has_every_iteration_witness :
  (1025 + 2047 <= edges (snd (test_transpose_00 (flat 7) tb0)))%nat /\
  In (in_line 2047 (data_in 2047))
     (stdout (snd (test_transpose_00 (flat 7) tb0))) /\
  In (out_line 2047 (data_out_at (flat 7) 2047))
     (stdout (snd (test_transpose_00 (flat 7) tb0))).
Proof.
  assert (H : (1025 + 2047 <= edges (snd (test_transpose_00 (flat 7) tb0)))%nat).
  { assert (E : edges (snd (test_transpose_00 (flat 7) tb0)) = 3072%nat).
    { lazy. reflexivity. }
    rewrite E. apply Nat.eq_le_incl. reflexivity. }
  split; [exact H|].
  apply (log_has_every_iteration (flat 7) 2047 H).
Defined.

(** When a first discontinuity is found at an index [i] before the last, the
    log of the failed test ends with the rule, then the input and output
    lines and the four debug taps of the one following sample, then the
    failure message; [data_out_last] still holds the sample at which the
    discontinuity was found. *)
Theorem failure_shows_one_more_sample (dut : nat -> signals) (i : nat) :
  first_discontinuity dut i ->
  (i <= 2046)%nat ->
  let s := snd (test_transpose_00 dut tb0) in
  let now := dut (1026 + i)%nat in
  data_out_last s = Some (data_out_at dut i) /\
  exists rest,
    stdout s =
    found_line
      :: env1_line (env1 now) :: del1_line (delay_out1 now)
      :: env0_line (env0 now) :: del0_line (delay_out0 now)
      :: out_line (S i) (data_out_at dut (S i))
      :: in_line (S i) (data_in (S i))
      :: rule_line :: rest.
Proof.
  intros (Hi & Hdisc & Hquiet) Hlast. cbv zeta.
  destruct i as [|m]; [lia|].
  destruct (test_prefix_normal dut m) as (sm & Hrun_m & Hinv_m).
  { intros j Hj. apply Hquiet. lia. }
  destruct Hinv_m as (He & _ & _ & Hl & Hbn & _).
  assert (Hb : breaknext sm = false).
  { rewrite Hbn. destruct m as [|m']; [reflexivity|]. apply Hquiet. lia. }
  pose proof (test_prefix_S dut (S m) sm Hrun_m) as Hrun_i.
  rewrite (stim_body_compare dut (S m) sm _ Hl Hb) in Hrun_i.
  replace (S (edges sm)) with (1025 + S m)%nat in Hrun_i by lia.
  fold (data_out_at dut (S m)) in Hrun_i.
  assert (Hc : (50 <? Z.abs (data_out_at dut (S m) - data_out_at dut m))
               = true).
  { unfold discontinuity in Hdisc.
    replace (S m - 1)%nat with m in Hdisc by lia. exact Hdisc. }
  rewrite Hc in Hrun_i.
  pose proof (test_prefix_S dut (S (S m)) _ Hrun_i) as Hrun_f.
  rewrite (stim_body_pending dut (S (S m)) _ (data_out_at dut (S m)))
    in Hrun_f by reflexivity.
  cbn [edges stdout pitch] in Hrun_f.
  replace (S (1025 + S m)) with (1026 + S m)%nat in Hrun_f by lia.
  fold (data_out_at dut (S (S m))) in Hrun_f.
  rewrite test_is_prefix.
  rewrite (test_prefix_raised_same dut (S (S (S m))) 2048 _ ltac:(lia) Hrun_f).
  cbn [snd data_out_last stdout]. split; [reflexivity|].
  eexists. reflexivity.
Qed.

Lemma failure_shows_one_more_sample_witness :
  first_discontinuity (step_after 1029 (-60)) 5 /\
  (5 <= 2046)%nat /\
  let s := snd (test_transpose_00 (step_after 1029 (-60)) tb0) in
  let now := step_after 1029 (-60) (1026 + 5)%nat in
  data_out_last s = Some (data_out_at (step_after 1029 (-60)) 5) /\
  exists rest,
    stdout s =
    found_line
      :: env1_line (env1 now) :: del1_line (delay_out1 now)
      :: env0_line (env0 now) :: del0_line (delay_out0 now)
      :: out_line 6 (data_out_at (step_after 1029 (-60)) 6)
      :: in_line 6 (data_in 6)
      :: rule_line :: rest.
Proof.
  assert (H : first_discontinuity (step_after 1029 (-60)) 5).
  { split; [lia|]. split.
    - vm_compute. reflexivity.
    - apply quiet_before_check. vm_compute. reflexivity. }
  split; [exact H|]. split; [lia|].
  apply (failure_shows_one_more_sample (step_after 1029 (-60)) 5 H). lia.
Defined.

(** ** The shape of the stimulus *)

(** Consecutive values of [1000 * sin (i/100)] are at most 10 apart. *)
Lemma sine_step (i : nat) :
  (Rabs (1000 * sin (INR (S i) / 100) - 1000 * sin (INR i / 100)) <= 10)%R.
Proof.
  rewrite <- Rmult_minus_distr_l, form4.
  replace ((INR (S i) / 100 - INR i / 100) / 2)%R with (1 / 200)%R
    by (rewrite S_INR; field).
  pose proof (COS_bound ((INR (S i) / 100 + INR i / 100) / 2)) as [Hc1 Hc2].
  assert (Ht1 : (0 <= sin (1 / 200))%R).
  { apply sin_ge_0; [lra|]. pose proof PI2_1. lra. }
  assert (Ht2 : (sin (1 / 200) < 1 / 200)%R) by (apply sin_lt_x; lra).
  set (c := cos _) in *. set (t := sin _) in *.
  apply Rabs_le. split; nra.
Qed.

(** The stimulus starts at 0 and never leaves the range -1000..1000. *)
Theorem stimulus_amplitude (i : nat) :
  data_in 0 = 0 /\ - 1000 <= data_in i <= 1000.
Proof.
  split; [exact data_in_0 | apply data_in_bound].
Qed.

(** The stimulus itself never steps by more than 11 from one sample to the
    next: measured with the bench's own threshold, the input is free of
    discontinuities. *)
Theorem stimulus_slew (i : nat) :
  Z.abs (data_in (S i) - data_in i) <= 11 /\
  (50 <? Z.abs (data_in (S i) - data_in i)) = false.
Proof.
  assert (Hslew : Z.abs (data_in (S i) - data_in i) <= 11).
  { pose proof (sine_step i) as Hstep.
    unfold data_in.
    destruct (py_int_toward_zero (1000 * sin (INR (S i) / 100))) as [_ H1].
    destruct (py_int_toward_zero (1000 * sin (INR i / 100))) as [_ H0].
    set (x1 := (1000 * sin (INR (S i) / 100))%R) in *.
    set (x0 := (1000 * sin (INR i / 100))%R) in *.
    assert (Hlt : (Rabs (IZR (py_int x1 - py_int x0)) < 12)%R).
    { rewrite minus_IZR.
      apply Rabs_def2 in H1. apply Rabs_def2 in H0.
      assert (Hs : (- 10 <= x1 - x0 <= 10)%R).
      { pose proof (Rle_abs (x1 - x0)) as Hup.
        pose proof (Rle_abs (- (x1 - x0))) as Hdown.
        rewrite Rabs_Ropp in Hdown. lra. }
      apply Rabs_def1; lra. }
    rewrite <- abs_IZR in Hlt. apply lt_IZR in Hlt. lia. }
  split; [exact Hslew|].
  apply Z.ltb_ge. lia.
Qed.
